(** * Functionbeat GCP template builder

  A shallow embedding of
  [x-pack/functionbeat/manager/gcp/template_builder.go]: the builder that
  resolves a function in the provider registry, zips its package files and
  renders the request body posted to the Cloud Functions API.

  Layout: the Go library functions the builder calls ([time.Duration.String],
  [fmt.Sprintf], [filepath.Join]) come first, then the data types, then the
  builder itself, then the theorems. *)

From Stdlib Require Import ZArith Ascii Lia.
From stdpp Require Import base strings list gmap fin_maps.

Local Open Scope Z_scope.

(** ** Decimal output, as [time] and [fmt] produce it *)

Module strconv.

(** [byte(v%10) + '0'] *)
Definition digit (v : Z) : ascii := ascii_of_nat (48 + Z.to_nat (v mod 10)).

(** The loop [for v > 0 { w--; buf[w] = byte(v%10) + '0'; v /= 10 }]: the
    buffer is filled from its right end, so every digit goes in front of
    what is already there. *)
Fixpoint digits_loop (fuel : nat) (v : Z) (buf : string) : string :=
  match fuel with
  | O => buf
  | S fuel' =>
      if 0 <? v then digits_loop fuel' (v / 10) (String (digit v) buf)
      else buf
  end.

(** One round of the loop per decimal digit of [v]; a number has no more
    decimal digits than binary ones. *)
Definition digits_fuel (v : Z) : nat := S (Z.to_nat (Z.log2 v)).

(** [fmtInt] of package [time]: [v] in decimal in front of [buf]. *)
Definition fmtInt (buf : string) (v : Z) : string :=
  if v =? 0 then String "0" buf else digits_loop (digits_fuel v) v buf.

(** [fmtFrac] of package [time]: the low [prec] decimal digits of [v] as a
    fraction in front of [buf], trailing zeros and a bare decimal point
    left out; also returns [v / 10^prec]. *)
Fixpoint fmtFrac_loop (prec : nat) (v : Z) (print : bool) (buf : string)
  : string * Z * bool :=
  match prec with
  | O => (buf, v, print)
  | S prec' =>
      let d := v mod 10 in
      let print' := print || negb (d =? 0) in
      fmtFrac_loop prec' (v / 10) print'
        (if print' then String (digit v) buf else buf)
  end.

Definition fmtFrac (buf : string) (v : Z) (prec : nat) : string * Z :=
  let '(buf', v', print) := fmtFrac_loop prec v false buf in
  (if print then String "." buf' else buf', v').

(** [strconv.Itoa], the form [%d] prints. *)
Definition Itoa (n : Z) : string :=
  if n <? 0 then String "-" (fmtInt "" (- n)) else fmtInt "" n.

End strconv.

(** ** [time.Duration] *)

Module time.

(** A duration is an [int64] count of nanoseconds. *)
Definition Duration := Z.

Definition Nanosecond : Duration := 1.
Definition Microsecond : Duration := 1000 * Nanosecond.
Definition Millisecond : Duration := 1000 * Microsecond.
Definition Second : Duration := 1000 * Millisecond.

(** The two bytes of the micro sign in UTF-8, [0xC2 0xB5]. *)
Definition micro : string :=
  String (ascii_of_nat 194) (String (ascii_of_nat 181) "").

(** [Duration.String]: [72h3m0.5s], [1.5ms], [0s]. Below one second the
    unit shrinks; from one second on the value is split in hours, minutes
    and seconds. *)
Definition Duration_String (d : Duration) : string :=
  let neg := d <? 0 in
  let u := Z.abs d in
  let body :=
    if u <? Second then
      if u =? 0 then "0s"
      else
        let '(unit, prec) :=
          if u <? Microsecond then ("ns", 0%nat)
          else if u <? Millisecond then (micro +:+ "s", 3%nat)
          else ("ms", 6%nat) in
        let '(buf, u1) := strconv.fmtFrac unit u prec in
        strconv.fmtInt buf u1
    else
      let '(buf, u1) := strconv.fmtFrac "s" u 9 in
      let buf := strconv.fmtInt buf (u1 mod 60) in
      let u2 := u1 / 60 in
      if 0 <? u2 then
        let buf := strconv.fmtInt (String "m" buf) (u2 mod 60) in
        let u3 := u2 / 60 in
        if 0 <? u3 then strconv.fmtInt (String "h" buf) u3 else buf
      else buf in
  if neg then String "-" body else body.

End time.

(** ** [fmt.Sprintf] *)

Module fmt.

(** The operands the builder formats: strings and integers. *)
Inductive arg :=
  | Str (s : string)
  | Int (n : Z).

Definition type_of (a : arg) : string :=
  match a with Str _ => "string" | Int _ => "int" end.

Definition value_of (a : arg) : string :=
  match a with Str s => s | Int n => strconv.Itoa n end.

(** What one verb prints for one operand; a verb that does not fit the
    operand prints [%!verb(type=value)]. *)
Definition verb (v : ascii) (a : arg) : string :=
  match v, a with
  | "s"%char, Str s => s
  | "d"%char, Int n => strconv.Itoa n
  | "v"%char, _ => value_of a
  | _, _ => "%!" +:+ String v ("(" +:+ type_of a +:+ "=" +:+ value_of a +:+ ")")
  end.

Fixpoint extra_list (args : list arg) : string :=
  match args with
  | [] => ""
  | [a] => type_of a +:+ "=" +:+ value_of a
  | a :: rest => type_of a +:+ "=" +:+ value_of a +:+ ", " +:+ extra_list rest
  end.

(** Operands left over once the format is used up. *)
Definition extra (args : list arg) : string :=
  match args with
  | [] => ""
  | _ => "%!(EXTRA " +:+ extra_list args +:+ ")"
  end.

(** [Sprintf] for formats made of plain text, [%%] and one-letter verbs
    (no flags, width or precision, which the builder's formats do not
    use). *)
Fixpoint Sprintf (format : string) (args : list arg) : string :=
  match format with
  | "" => extra args
  | String "%" "" => "%!(NOVERB)" +:+ extra args
  | String "%" (String v rest) =>
      if Ascii.eqb v "%" then String "%" (Sprintf rest args)
      else
        match args with
        | [] => "%!" +:+ String v ("(MISSING)" +:+ Sprintf rest [])
        | a :: args' => verb v a +:+ Sprintf rest args'
        end
  | String c rest => String c (Sprintf rest args)
  end.

End fmt.

(** ** [filepath.Join], on a system whose separator is the slash *)

Module filepath.

Definition Separator : ascii := "/"%char.

(** The elements of a path: the pieces between separators, empty ones
    included. *)
Fixpoint elements (path : string) : list string :=
  match path with
  | "" => [""]
  | String c rest =>
      if Ascii.eqb c Separator then "" :: elements rest
      else
        match elements rest with
        | e :: es => String c e :: es
        | [] => [String c ""]
        end
  end.

(** One element meets the output built so far ([out] holds the kept
    elements, the last one first). Empty and [.] elements vanish; [..]
    removes the element before it when there is one to remove, is kept at
    the front of a relative path, and vanishes at the root. *)
Definition clean_step (rooted : bool) (out : list string) (e : string)
  : list string :=
  if String.eqb e "" then out
  else if String.eqb e "." then out
  else if String.eqb e ".." then
    match out with
    | top :: below =>
        if String.eqb top ".." then (if rooted then out else e :: out)
        else below
    | [] => if rooted then [] else [e]
    end
  else e :: out.

Definition is_rooted (path : string) : bool :=
  match path with
  | String c _ => Ascii.eqb c Separator
  | "" => false
  end.

(** [filepath.Clean]: the shortest path equivalent to [path] by purely
    lexical processing. *)
Definition Clean (path : string) : string :=
  let rooted := is_rooted path in
  let out := fold_left (clean_step rooted) (elements path) [] in
  let s := (if rooted then "/" else "") +:+ String.concat "/" (rev out) in
  if String.eqb s "" then "." else s.

(** [filepath.Join]: the elements from the first non-empty one on, joined
    by separators, and the result cleaned. *)
Fixpoint Join (elem : list string) : string :=
  match elem with
  | [] => ""
  | e :: rest =>
      if String.eqb e "" then Join rest
      else Clean (String.concat "/" elem)
  end.

End filepath.

(** ** The packages the builder imports *)

(** Go's [error]: either made here by [errors.New], or handed over by a
    collaborator (the registry, the archive writer, the configuration
    loader), named by the package it comes from. *)
Inductive error :=
  | errors_New (text : string)
  | foreign_error (pkg text : string).

Module bundle.

(** [bundle.LocalFile]; the mode is an [os.FileMode]. The builder puts only
    local files in a [bundle.Resource]. *)
Record LocalFile := { Path : string; FileMode : Z }.

Definition Resource := LocalFile.

End bundle.

(** The way Go reads the literals [0755] and [0655]: base eight. *)
Definition octal (a b c : Z) : Z := (a * 8 + b) * 8 + c.

Module fngcp.

(** Modelled from the spec: the event trigger of a function, "structured,
    provider-defined", declared in package [provider/gcp/gcp]. The builder
    passes it through untouched, so only its identity matters here. *)
Record EventTrigger := { trigger_fields : list (string * string) }.

(** Modelled from the spec: [FunctionConfig] of package [provider/gcp/gcp],
    with the attributes of the data model and the types the builder's tests
    on them ask for ([Timeout] is a [time.Duration], the sizes are integers,
    [Labels] maps strings to strings). The entry point is private and read
    through the method [EntryPoint]. *)
Record FunctionConfig := {
  Description : string;
  entryPoint : string;
  Trigger : EventTrigger;
  Timeout : time.Duration;
  MemorySize : Z;
  ServiceAccountEmail : string;
  Labels : gmap string string;
  MaxInstances : Z;
  VPCConnector : string;
}.

Definition EntryPoint (c : FunctionConfig) : string := entryPoint c.

End fngcp.

Module common.

(** What a [common.MapStr] (a [map[string]interface{}]) holds in this file:
    strings, integers, the trigger, the label map and a nested [MapStr]. *)
#[local] Set Warnings "-register-all".
Inductive value :=
  | VString (s : string)
  | VInt (n : Z)
  | VTrigger (t : fngcp.EventTrigger)
  | VLabels (m : gmap string string)
  | VMapStr (m : gmap string value).

#[local] Set Warnings "register-all".

Abbreviation MapStr := (gmap string value).

End common.

Module logp.

(** A [*logp.Logger], known by its selector; what it logs is kept in the
    trace of the run. *)
Record Logger := { selector : string }.

End logp.

(** ** Package [gcp]: what the builder needs from its own package *)

(** [Config], the provider configuration: the fields the builder reads. *)
Record Config := {
  ProjectID : string;
  Location : string;
  FunctionStorage : string;
}.

(** [&Config{}] *)
Definition Config_zero : Config :=
  {| ProjectID := ""; Location := ""; FunctionStorage := "" |}.

(** A [*common.Config] seen through the one method called on it:
    [cfg.Unpack(to)] fills the struct [to] points at and may fail. *)
Record common_Config := {
  Unpack : Config → Config * option error;
}.

(** Modelled from the spec: the interface [installer] of package [gcp], the
    capability a registered function needs to be built: "when buildable,
    exposes [Name() → string], [Config() → FunctionConfig]". *)
Record installer := {
  Name : string;
  Config_ : fngcp.FunctionConfig; (* the method [Config()] *)
}.

(** A [provider.Function] as the registry hands it out: a value whose
    dynamic type has the methods of [installer], or one whose type lacks
    them. *)
Inductive Function :=
  | Installable (fn : installer)
  | NotInstallable (function_name : string).

(** [fn.(installer)] on a possibly nil interface value. *)
Definition as_installer (fn : option Function) : option installer * bool :=
  match fn with
  | Some (Installable function) => (Some function, true)
  | _ => (None, false)
  end.

(** [provider.Provider], by the method the builder calls: the registry
    lookup, returning Go's pair of a value and an error. *)
Record Provider := {
  FindFunctionByName : string → option Function * option error;
}.

(** ** Runs: results, panics and the trace of calls *)

(** What a run does besides computing: the lines it logs and the calls it
    makes, in order. *)
Inductive event :=
  | Log_Debug (msg : string)
  | Call_FindFunctionByName (name : string)
  | Call_MakeZip (resources : list bundle.Resource)
  | Call_requestBody (name : string).

(** A run ends with a value or with a Go panic. *)
Inductive outcome (A : Type) :=
  | Value (a : A)
  | Panic (why : string).
Arguments Value {A} a.
Arguments Panic {A} why.

(** A computation extends the trace it is given. *)
Definition M (A : Type) : Type := list event → outcome A * list event.

#[global] Instance M_ret : MRet M := λ A a t, (Value a, t).

#[global] Instance M_bind : MBind M := λ A B k m t,
  match m t with
  | (Value a, t') => k a t'
  | (Panic why, t') => (Panic why, t')
  end.

Definition emit (e : event) : M unit := λ t, (Value tt, t ++ [e]).

(** Following a pointer, or calling a method through an interface value:
    nil panics. *)
Definition deref {A : Type} (p : option A) : M A :=
  match p with
  | Some a => mret a
  | None => λ t, (Panic "invalid memory address or nil pointer dereference", t)
  end.

(** A run from the empty trace. *)
Definition run {A : Type} (m : M A) : outcome A * list event := m [].

(** ** The template builder *)

Definition runtime : string := "go111".
Definition sourceArchiveURL : string := "gs://%s/%s".
Definition locationTemplate : string := "projects/%s/locations/%s".
Definition functionName : string := locationTemplate +:+ "/functions/%s".

(** The fields are a Go interface value and two pointers: each may be nil. *)
Record defaultTemplateBuilder := {
  provider : option Provider;
  log : option logp.Logger;
  gcpConfig : option Config;
}.

(** [&defaultTemplateBuilder{}] *)
Definition defaultTemplateBuilder_zero : defaultTemplateBuilder :=
  {| provider := None; log := None; gcpConfig := None |}.

Record functionData := {
  raw : list Byte.byte;
  requestBody_ : common.MapStr; (* the field [requestBody] *)
}.

(** [NewTemplateBuilder] returns the requested template builder, as Go's
    pair of an interface value and an error. *)
Definition NewTemplateBuilder (log : option logp.Logger) (cfg : common_Config)
    (p : option Provider) : option defaultTemplateBuilder * option error :=
  let gcpCfg := Config_zero in
  let '(gcpCfg, err) := Unpack cfg gcpCfg in
  match err with
  | Some err => (Some defaultTemplateBuilder_zero, Some err)
  | None =>
      (Some {| log := log; gcpConfig := Some gcpCfg; provider := p |}, None)
  end.

(** [d.log.Debug(msg)] *)
Definition Debug (d : defaultTemplateBuilder) (msg : string) : M unit :=
  _ ← deref (log d); emit (Log_Debug msg).

(** [d.log.Debugf(format, args...)] *)
Definition Debugf (d : defaultTemplateBuilder) (format : string)
    (args : list fmt.arg) : M unit :=
  Debug d (fmt.Sprintf format args).

Definition findFunction (p : option Provider) (name : string)
    : M (option installer * option error) :=
  p ← deref p;
  emit (Call_FindFunctionByName name);;
  let '(fn, err) := FindFunctionByName p name in
  match err with
  | Some err => mret (None, Some err)
  | None =>
      let '(function, ok) := as_installer fn in
      if negb ok then
        mret (None, Some (errors_New
                "incompatible type received, expecting: 'functionManager'"))
      else mret (function, None)
  end.

Definition zipResources (typeName : string) : list bundle.Resource :=
  [ {| bundle.Path := filepath.Join ["pkg"; typeName; typeName +:+ ".go"];
       bundle.FileMode := octal 7 5 5 |};
    {| bundle.Path := filepath.Join ["pkg"; typeName; "go.mod"];
       bundle.FileMode := octal 6 5 5 |};
    {| bundle.Path := filepath.Join ["pkg"; typeName; "go.sum"];
       bundle.FileMode := octal 6 5 5 |} ].

(** The body of [requestBody] once the receiver's [gcpConfig] has been
    followed: the map literal, then the six guarded assignments. *)
Definition requestBody_fields (gcpConfig : Config) (name : string)
    (config : fngcp.FunctionConfig) : common.MapStr :=
  let fnName :=
    fmt.Sprintf functionName
      [fmt.Str (ProjectID gcpConfig); fmt.Str (Location gcpConfig);
       fmt.Str name] in
  let body : common.MapStr :=
    <["name" := common.VString fnName]> $
    <["description" := common.VString (fngcp.Description config)]> $
    <["entryPoint" := common.VString (fngcp.EntryPoint config)]> $
    <["runtime" := common.VString runtime]> $
    <["sourceArchiveUrl" :=
        common.VString
          (fmt.Sprintf sourceArchiveURL
             [fmt.Str (FunctionStorage gcpConfig); fmt.Str name])]> $
    <["eventTrigger" := common.VTrigger (fngcp.Trigger config)]> $
    <["environmentVariables" :=
        common.VMapStr {[ "ENABLED_FUNCTIONS" := common.VString name ]}]> $
    ∅ in
  let body :=
    if 0 * time.Second <? fngcp.Timeout config
    then <["timeout" :=
             common.VString (time.Duration_String (fngcp.Timeout config))]> body
    else body in
  let body :=
    if 0 <? fngcp.MemorySize config
    then <["memorySize" := common.VInt (fngcp.MemorySize config)]> body
    else body in
  let body :=
    if 0 <? Z.of_nat (String.length (fngcp.ServiceAccountEmail config))
    then <["serviceAccountEmail" :=
             common.VString (fngcp.ServiceAccountEmail config)]> body
    else body in
  let body :=
    if 0 <? Z.of_nat (size (fngcp.Labels config))
    then <["labels" := common.VLabels (fngcp.Labels config)]> body
    else body in
  let body :=
    if 0 <? fngcp.MaxInstances config
    then <["maxInstances" := common.VInt (fngcp.MaxInstances config)]> body
    else body in
  let body :=
    if 0 <? Z.of_nat (String.length (fngcp.VPCConnector config))
    then <["vpcConnector" := common.VString (fngcp.VPCConnector config)]> body
    else body in
  body.

(** [d.requestBody(name, config)]: the first thing it does is read
    [d.gcpConfig.ProjectID]. *)
Definition requestBody (d : defaultTemplateBuilder) (name : string)
    (config : fngcp.FunctionConfig) : M common.MapStr :=
  emit (Call_requestBody name);;
  gcpConfig ← deref (gcpConfig d);
  mret (requestBody_fields gcpConfig name config).

Section Collaborators.

(** [core.MakeZip], which reads the listed files and zips them; its answer
    depends on the files on disk. *)
Variable MakeZip : list bundle.Resource → list Byte.byte * option error.

(** [provider.ListFunctions], the enumeration of the registered function
    types of one provider. *)
Variable ListFunctions : string → list string * option error.

(** [common.MapStr.StringToPrint], the printable form of a map. *)
Variable StringToPrint : common.MapStr → string.

Definition execute (d : defaultTemplateBuilder) (name : string)
    : M (option functionData * option error) :=
  Debug d "Compressing all assets into an artifact";;
  '(fn, err) ← findFunction (provider d) name;
  match err with
  | Some err => mret (None, Some err)
  | None =>
      fn ← deref fn;
      let resources := zipResources (Name fn) in
      emit (Call_MakeZip resources);;
      let '(raw, err) := MakeZip resources in
      match err with
      | Some err => mret (None, Some err)
      | None =>
          Debugf d "Compression is successful (zip size: %d bytes)"
            [fmt.Int (Z.of_nat (length raw))];;
          body ← requestBody d name (Config_ fn);
          mret (Some {| raw := raw; requestBody_ := body |}, None)
      end
  end.

(** [RawTemplate] returns the JSON to POST to the endpoint. *)
Definition RawTemplate (d : defaultTemplateBuilder) (name : string)
    : M (string * option error) :=
  '(fn, err) ← findFunction (provider d) name;
  match err with
  | Some err => mret ("", Some err)
  | None =>
      fn ← deref fn;
      body ← requestBody d name (Config_ fn);
      mret (StringToPrint body, None)
  end.

(** [ZipResources] returns the list of zip resources; [None] is Go's nil
    slice, [Some []] the empty slice [make] returns. *)
Definition ZipResources : option (list bundle.Resource) :=
  let '(functions, err) := ListFunctions "gcp" in
  match err with
  | Some _ => None
  | None =>
      let resources := [] in
      Some (fold_left (λ resources f, resources ++ zipResources f)
              functions resources)
  end.

End Collaborators.

(** ** Reading a trace *)

(** The file lists handed to [core.MakeZip] during a run, in order. *)
Definition zipped (t : list event) : list (list bundle.Resource) :=
  omap (λ e, match e with Call_MakeZip rs => Some rs | _ => None end) t.

(** The names [requestBody] was called with during a run, in order. *)
Definition rendered (t : list event) : list string :=
  omap (λ e, match e with Call_requestBody n => Some n | _ => None end) t.

(** ** Reading a request body *)

Definition mandatory_fields : gset string :=
  {[ "name"; "description"; "entryPoint"; "runtime"; "sourceArchiveUrl";
     "eventTrigger"; "environmentVariables" ]}.

Definition optional_fields : gset string :=
  {[ "timeout"; "memorySize"; "serviceAccountEmail"; "labels";
     "maxInstances"; "vpcConnector" ]}.

(** Field [key] is in the body exactly when [set] holds, and then it holds
    [v]. *)
Definition present_iff (body : common.MapStr) (key : string) (set : Prop)
    (v : common.value) : Prop :=
  (is_Some (body !! key) ↔ set) ∧ (set → body !! key = Some v).

(** All six optional settings at their zero values. *)
Definition all_unset (config : fngcp.FunctionConfig) : Prop :=
  fngcp.Timeout config = 0 ∧ fngcp.MemorySize config = 0
  ∧ fngcp.ServiceAccountEmail config = "" ∧ fngcp.Labels config = ∅
  ∧ fngcp.MaxInstances config = 0 ∧ fngcp.VPCConnector config = "".

(** ** Path elements *)

Fixpoint no_separator (s : string) : bool :=
  match s with
  | "" => true
  | String c rest => negb (Ascii.eqb c filepath.Separator) && no_separator rest
  end.

(** A name that is one path element on its own: not empty, not [.] or [..],
    and free of separators. Go package directories are named this way. *)
Definition plain_element (s : string) : bool :=
  negb (String.eqb s "") && negb (String.eqb s ".")
  && negb (String.eqb s "..") && no_separator s.

(** ** Optional settings *)

(** The optional fields whose setting is given: above zero for the numbers,
    not empty for the strings and the labels. *)
Definition set_options (config : fngcp.FunctionConfig) : gset string :=
  (if bool_decide (0 < fngcp.Timeout config) then {[ "timeout" ]} else ∅)
  ∪ (if bool_decide (0 < fngcp.MemorySize config) then {[ "memorySize" ]} else ∅)
  ∪ (if bool_decide (fngcp.ServiceAccountEmail config ≠ "")
     then {[ "serviceAccountEmail" ]} else ∅)
  ∪ (if bool_decide (fngcp.Labels config ≠ ∅) then {[ "labels" ]} else ∅)
  ∪ (if bool_decide (0 < fngcp.MaxInstances config)
     then {[ "maxInstances" ]} else ∅)
  ∪ (if bool_decide (fngcp.VPCConnector config ≠ "")
     then {[ "vpcConnector" ]} else ∅).

(** All six optional settings given. *)
Definition all_set (config : fngcp.FunctionConfig) : Prop :=
  0 < fngcp.Timeout config ∧ 0 < fngcp.MemorySize config
  ∧ fngcp.ServiceAccountEmail config ≠ "" ∧ fngcp.Labels config ≠ ∅
  ∧ 0 < fngcp.MaxInstances config ∧ fngcp.VPCConnector config ≠ "".

(** [config] with each negative number replaced by zero. *)
Definition without_negatives (config : fngcp.FunctionConfig)
    : fngcp.FunctionConfig :=
  {| fngcp.Description := fngcp.Description config;
     fngcp.entryPoint := fngcp.entryPoint config;
     fngcp.Trigger := fngcp.Trigger config;
     fngcp.Timeout := Z.max 0 (fngcp.Timeout config);
     fngcp.MemorySize := Z.max 0 (fngcp.MemorySize config);
     fngcp.ServiceAccountEmail := fngcp.ServiceAccountEmail config;
     fngcp.Labels := fngcp.Labels config;
     fngcp.MaxInstances := Z.max 0 (fngcp.MaxInstances config);
     fngcp.VPCConnector := fngcp.VPCConnector config |}.

(** The path of [file] in the package directory of [typeName], written
    with separators. *)
Definition package_path (typeName file : string) : string :=
  "pkg/" +:+ typeName +:+ "/" +:+ file.


(** ** A deployment to try things on *)

Module example.

Definition storage_config : fngcp.FunctionConfig :=
  {| fngcp.Description := "sync events";
     fngcp.entryPoint := "Handle";
     fngcp.Trigger :=
       {| fngcp.trigger_fields :=
            [("eventType", "google.storage.object.finalize")] |};
     fngcp.Timeout := 30 * time.Second;
     fngcp.MemorySize := 256;
     fngcp.ServiceAccountEmail := "";
     fngcp.Labels := ∅;
     fngcp.MaxInstances := 0;
     fngcp.VPCConnector := "" |}.

(** Every optional setting left at its zero value. *)
Definition bare_config : fngcp.FunctionConfig :=
  {| fngcp.Description := "pubsub events";
     fngcp.entryPoint := "RunPubSub";
     fngcp.Trigger := {| fngcp.trigger_fields := [] |};
     fngcp.Timeout := 0;
     fngcp.MemorySize := 0;
     fngcp.ServiceAccountEmail := "";
     fngcp.Labels := ∅;
     fngcp.MaxInstances := 0;
     fngcp.VPCConnector := "" |}.

(** Every optional setting given. *)
Definition full_config : fngcp.FunctionConfig :=
  {| fngcp.Description := "all set";
     fngcp.entryPoint := "RunPubSub";
     fngcp.Trigger := {| fngcp.trigger_fields := [] |};
     fngcp.Timeout := 90 * time.Second;
     fngcp.MemorySize := 512;
     fngcp.ServiceAccountEmail := "fb@project.iam.gserviceaccount.com";
     fngcp.Labels := {[ "team" := "obs" ]};
     fngcp.MaxInstances := 3;
     fngcp.VPCConnector := "conn-1" |}.

Definition es_storage : installer :=
  {| Name := "storage"; Config_ := storage_config |}.

Definition not_found (name : string) : error :=
  foreign_error "provider" ("unknown function: " +:+ name).

(** A registry with one buildable function, [es-storage] of type
    [storage], and one entry that is not buildable. *)
Definition registry : Provider :=
  {| FindFunctionByName name :=
       if String.eqb name "es-storage" then (Some (Installable es_storage), None)
       else if String.eqb name "legacy" then (Some (NotInstallable "legacy"), None)
       else (None, Some (not_found name)) |}.

Definition logger : logp.Logger := {| logp.selector := "gcp" |}.

Definition gcp_config : Config :=
  {| ProjectID := "my-project";
     Location := "us-central1";
     FunctionStorage := "functionbeat-deploy" |}.

Definition builder : defaultTemplateBuilder :=
  {| provider := Some registry; log := Some logger;
     gcpConfig := Some gcp_config |}.

(** An archive writer that succeeds: one byte per listed file. *)
Definition MakeZip_ok (rs : list bundle.Resource) : list Byte.byte * option error :=
  ((λ _, Byte.x50) <$> rs, None).

(** An archive writer whose files cannot be read. *)
Definition MakeZip_unreadable (rs : list bundle.Resource)
    : list Byte.byte * option error :=
  ([], Some (foreign_error "core" "open: no such file or directory")).

(** A printer that shows the field names of a map. *)
Definition StringToPrint_keys (m : common.MapStr) : string :=
  String.concat "," (map_to_list m).*1.

Definition ListFunctions_two (providerKind : string) : list string * option error :=
  (["storage"; "pubsub"], None).

Definition ListFunctions_unknown (providerKind : string)
    : list string * option error :=
  ([], Some (foreign_error "provider" "unknown provider")).

Definition ListFunctions_closed (providerKind : string)
    : list string * option error :=
  ([], Some (foreign_error "provider" "registry closed")).

(** A configuration that unpacks, and one that does not. *)
Definition cfg_good : common_Config :=
  {| Unpack to := (gcp_config, None) |}.

Definition cfg_bad : common_Config :=
  {| Unpack to := (to, Some (foreign_error "ucfg" "missing field: project_id")) |}.

(** Numbers below zero where a size or a time is expected. *)
Definition negative_config : fngcp.FunctionConfig :=
  {| fngcp.Description := "odd numbers";
     fngcp.entryPoint := "RunPubSub";
     fngcp.Trigger := {| fngcp.trigger_fields := [] |};
     fngcp.Timeout := - 5 * time.Second;
     fngcp.MemorySize := - 1;
     fngcp.ServiceAccountEmail := "";
     fngcp.Labels := ∅;
     fngcp.MaxInstances := - 2;
     fngcp.VPCConnector := "" |}.

(** A provider with no function type registered. *)
Definition ListFunctions_none (providerKind : string)
    : list string * option error :=
  ([], None).




End example.

(** * Properties *)

(** ** The library functions on a few inputs *)

Example Duration_String_30s : time.Duration_String (30 * time.Second) = "30s".
Proof. reflexivity. Qed.

Example Duration_String_mixed :
  time.Duration_String (72 * 3600 * time.Second + 3 * 60 * time.Second
                        + 500 * time.Millisecond) = "72h3m0.5s".
Proof. reflexivity. Qed.

Example Duration_String_small :
  time.Duration_String (1500 * time.Microsecond) = "1.5ms"
  ∧ time.Duration_String 0 = "0s"
  ∧ time.Duration_String (- 2 * time.Second) = "-2s"
  ∧ time.Duration_String 60000000000 = "1m0s".
Proof. repeat split; reflexivity. Qed.

Example Sprintf_bucket :
  fmt.Sprintf "gs://%s/%s" [fmt.Str "bucket"; fmt.Str "fn"] = "gs://bucket/fn".
Proof. reflexivity. Qed.

Example Sprintf_size :
  fmt.Sprintf "zip size: %d bytes" [fmt.Int 1024] = "zip size: 1024 bytes".
Proof. reflexivity. Qed.

Example Sprintf_misuse :
  fmt.Sprintf "%d and %s" [fmt.Str "a"] = "%!d(string=a) and %!s(MISSING)"
  ∧ fmt.Sprintf "done" [fmt.Int 7; fmt.Str "x"] = "done%!(EXTRA int=7, string=x)".
Proof. split; reflexivity. Qed.

Example Clean_examples :
  filepath.Clean "a//b/./c/.." = "a/b"
  ∧ filepath.Clean "/../a" = "/a"
  ∧ filepath.Clean "../../a/../b" = "../../b"
  ∧ filepath.Clean "" = "."
  ∧ filepath.Clean "a/.." = "."
  ∧ filepath.Clean "/" = "/".
Proof. repeat split; reflexivity. Qed.

Example Join_examples :
  filepath.Join ["pkg"; "storage"; "go.mod"] = "pkg/storage/go.mod"
  ∧ filepath.Join [""; ""; "a"; ""; "b"] = "a/b"
  ∧ filepath.Join ["pkg"; ""; ".go"] = "pkg/.go"
  ∧ filepath.Join [""; ""] = "".
Proof. repeat split; reflexivity. Qed.
(** ** Strings and paths *)

Lemma append_cons (c : ascii) (s t : string) :
  String c s +:+ t = String c (s +:+ t).
Proof. reflexivity. Qed.

Lemma append_empty_l (t : string) : "" +:+ t = t.
Proof. reflexivity. Qed.

Lemma append_empty_r (s : string) : s +:+ "" = s.
Proof. induction s as [|c s IH]; [done | by rewrite append_cons, IH]. Qed.

Lemma length_pos_nonempty (s : string) :
  (0 <? Z.of_nat (String.length s)) = true ↔ s ≠ "".
Proof.
  destruct s as [|c s]; simpl.
  - split; [discriminate | congruence].
  - split; [discriminate | intros _; apply Z.ltb_lt; lia].
Qed.

Lemma size_pos_nonempty (m : gmap string string) :
  (0 <? Z.of_nat (size m)) = true ↔ m ≠ ∅.
Proof.
  rewrite Z.ltb_lt, <- map_size_non_empty_iff. lia.
Qed.

Lemma no_separator_cons (c : ascii) (s : string) :
  no_separator (String c s) = true →
  Ascii.eqb c filepath.Separator = false ∧ no_separator s = true.
Proof.
  simpl. destruct (Ascii.eqb c filepath.Separator); simpl; [discriminate | done].
Qed.

Lemma no_separator_app (a b : string) :
  no_separator a = true → no_separator b = true → no_separator (a +:+ b) = true.
Proof.
  induction a as [|c a IH]; [done |].
  rewrite append_cons. simpl.
  destruct (Ascii.eqb c filepath.Separator); simpl; [discriminate | exact IH].
Qed.

(** A piece free of separators is an element of its own. *)
Lemma elements_single (a : string) :
  no_separator a = true → filepath.elements a = [a].
Proof.
  induction a as [|c a IH]; [done |].
  intros [Hc Ha]%no_separator_cons. simpl. rewrite Hc, (IH Ha). done.
Qed.

Lemma elements_cons (a rest : string) :
  no_separator a = true →
  filepath.elements (a +:+ String filepath.Separator rest)
  = a :: filepath.elements rest.
Proof.
  induction a as [|c a IH].
  - reflexivity.
  - intros [Hc Ha]%no_separator_cons.
    rewrite append_cons. simpl. rewrite Hc, (IH Ha). done.
Qed.

Lemma plain_element_inv (s : string) :
  plain_element s = true →
  String.eqb s "" = false ∧ String.eqb s "." = false
  ∧ String.eqb s ".." = false ∧ no_separator s = true.
Proof.
  unfold plain_element.
  destruct (String.eqb s ""), (String.eqb s "."), (String.eqb s ".."),
    (no_separator s); simpl; try discriminate; done.
Qed.

(** A real element is kept as it is. *)
Lemma clean_step_plain (rooted : bool) (out : list string) (e : string) :
  plain_element e = true → filepath.clean_step rooted out e = e :: out.
Proof.
  intros (H0 & H1 & H2 & _)%plain_element_inv.
  unfold filepath.clean_step. by rewrite H0, H1, H2.
Qed.

(** Joining [pkg], a directory name and a file name, all of them real
    elements, only puts separators between them. *)
Lemma Join_pkg (dir file : string) :
  plain_element dir = true → plain_element file = true →
  filepath.Join ["pkg"; dir; file] = "pkg/" +:+ dir +:+ "/" +:+ file.
Proof.
  intros Hdir Hfile.
  pose proof (plain_element_inv _ Hdir) as (_ & _ & _ & Sdir).
  pose proof (plain_element_inv _ Hfile) as (_ & _ & _ & Sfile).
  change (filepath.Join ["pkg"; dir; file])
    with (filepath.Clean ("pkg" +:+ String filepath.Separator
                            (dir +:+ String filepath.Separator file))).
  unfold filepath.Clean.
  rewrite (elements_cons "pkg") by done.
  rewrite (elements_cons dir) by done.
  rewrite (elements_single file) by done.
  cbn [fold_left].
  rewrite (clean_step_plain _ _ "pkg") by done.
  rewrite (clean_step_plain _ _ dir) by done.
  rewrite (clean_step_plain _ _ file) by done.
  reflexivity.
Qed.

(** Whatever the names, [Join] is [Clean] of the path written with
    separators. *)
Lemma Join_pkg_Clean (dir file : string) :
  filepath.Join ["pkg"; dir; file]
  = filepath.Clean ("pkg/" +:+ dir +:+ "/" +:+ file).
Proof. reflexivity. Qed.

Lemma plain_element_source_file (typeName : string) :
  plain_element typeName = true → plain_element (typeName +:+ ".go") = true.
Proof.
  intros (H0 & _ & _ & Hs)%plain_element_inv.
  unfold plain_element.
  rewrite (no_separator_app typeName ".go") by done.
  destruct typeName as [|c [|c' [|c'' s]]]; [discriminate | | |];
    rewrite ?append_cons, ?append_empty_l; simpl;
    repeat (destruct (Ascii.eqb _ _)); reflexivity.
Qed.

(** ** Runs of the builder's steps *)

Ltac unfold_run :=
  unfold run, Debugf, Debug, findFunction, requestBody, deref, emit,
    mbind, M_bind, mret, M_ret; simpl.

(** Looking past an assignment to another key, guarded or not. *)
Lemma lookup_guarded_insert_ne (b : bool) (k k' : string) (v : common.value)
    (m : common.MapStr) :
  k ≠ k' → (if b then <[k:=v]> m else m) !! k' = m !! k'.
Proof. intros Hne. destruct b; [by rewrite lookup_insert_ne | done]. Qed.

Lemma lookup_guarded_insert_eq (b : bool) (k : string) (v : common.value)
    (m : common.MapStr) :
  m !! k = None → (if b then <[k:=v]> m else m) !! k = if b then Some v else None.
Proof. intros Hm. destruct b; [by rewrite lookup_insert_eq | done]. Qed.

Lemma present_iff_guarded (b : bool) (set : Prop) (v : common.value)
    (body : common.MapStr) (key : string) :
  (b = true ↔ set) → body !! key = (if b then Some v else None) →
  present_iff body key set v.
Proof.
  unfold present_iff. intros Hb ->. destruct b.
  - split; [split; [intros _; by apply Hb | by eauto] | done].
  - split; [split; [by intros [? ?] | ] | ].
    + intros Hs. apply Hb in Hs. discriminate.
    + intros Hs. apply Hb in Hs. discriminate.
Qed.

Ltac skip_other_keys :=
  unfold requestBody_fields; cbv zeta;
  rewrite ?lookup_guarded_insert_ne by done.

Ltac literal_lookup :=
  rewrite ?lookup_insert_ne by done;
  first [ apply lookup_insert_eq | apply lookup_empty ].

Lemma requestBody_run (d : defaultTemplateBuilder) (g : Config) (name : string)
    (config : fngcp.FunctionConfig) (t : list event) :
  gcpConfig d = Some g →
  requestBody d name config t
  = (Value (requestBody_fields g name config), t ++ [Call_requestBody name]).
Proof. intros Hg. unfold_run. by rewrite Hg. Qed.

(** The six optional fields, one lookup each. *)
Lemma lookup_timeout g name config :
  requestBody_fields g name config !! "timeout"
  = if 0 <? fngcp.Timeout config
    then Some (common.VString (time.Duration_String (fngcp.Timeout config)))
    else None.
Proof.
  skip_other_keys. apply lookup_guarded_insert_eq. literal_lookup.
Qed.

Lemma lookup_memorySize g name config :
  requestBody_fields g name config !! "memorySize"
  = if 0 <? fngcp.MemorySize config
    then Some (common.VInt (fngcp.MemorySize config)) else None.
Proof.
  skip_other_keys. apply lookup_guarded_insert_eq.
  skip_other_keys. literal_lookup.
Qed.

Lemma lookup_serviceAccountEmail g name config :
  requestBody_fields g name config !! "serviceAccountEmail"
  = if 0 <? Z.of_nat (String.length (fngcp.ServiceAccountEmail config))
    then Some (common.VString (fngcp.ServiceAccountEmail config)) else None.
Proof.
  skip_other_keys. apply lookup_guarded_insert_eq.
  skip_other_keys. literal_lookup.
Qed.

Lemma lookup_labels g name config :
  requestBody_fields g name config !! "labels"
  = if 0 <? Z.of_nat (size (fngcp.Labels config))
    then Some (common.VLabels (fngcp.Labels config)) else None.
Proof.
  skip_other_keys. apply lookup_guarded_insert_eq.
  skip_other_keys. literal_lookup.
Qed.

Lemma lookup_maxInstances g name config :
  requestBody_fields g name config !! "maxInstances"
  = if 0 <? fngcp.MaxInstances config
    then Some (common.VInt (fngcp.MaxInstances config)) else None.
Proof.
  skip_other_keys. apply lookup_guarded_insert_eq.
  skip_other_keys. literal_lookup.
Qed.

Lemma lookup_vpcConnector g name config :
  requestBody_fields g name config !! "vpcConnector"
  = if 0 <? Z.of_nat (String.length (fngcp.VPCConnector config))
    then Some (common.VString (fngcp.VPCConnector config)) else None.
Proof.
  skip_other_keys. apply lookup_guarded_insert_eq.
  skip_other_keys. literal_lookup.
Qed.

(** The seven fields of the map literal survive the guarded assignments. *)
Lemma lookup_mandatory g name config (k : string) :
  k ∈ mandatory_fields → is_Some (requestBody_fields g name config !! k).
Proof.
  unfold mandatory_fields. rewrite !elem_of_union, !elem_of_singleton.
  intros H; repeat (destruct H as [H | H]); subst k;
    skip_other_keys; rewrite ?lookup_insert_ne by done;
    rewrite lookup_insert_eq; eauto.
Qed.

(** ** The request body *)

(** C2. Each of the six optional fields is in the rendered body exactly when
    its setting is not at its default: [timeout] when the duration is above
    zero (and then as the duration's string), [memorySize] and
    [maxInstances] when above zero, [serviceAccountEmail], [labels] and
    [vpcConnector] when not empty. *)
Theorem optional_fields_present_iff_set (p : option Provider)
    (l : option logp.Logger) (g : Config) (name : string)
    (config : fngcp.FunctionConfig) :
  let d := {| provider := p; log := l; gcpConfig := Some g |} in
  let body := requestBody_fields g name config in
  run (requestBody d name config) = (Value body, [Call_requestBody name])
  ∧ present_iff body "timeout" (0 < fngcp.Timeout config)
      (common.VString (time.Duration_String (fngcp.Timeout config)))
  ∧ present_iff body "memorySize" (0 < fngcp.MemorySize config)
      (common.VInt (fngcp.MemorySize config))
  ∧ present_iff body "serviceAccountEmail"
      (fngcp.ServiceAccountEmail config ≠ "")
      (common.VString (fngcp.ServiceAccountEmail config))
  ∧ present_iff body "labels" (fngcp.Labels config ≠ ∅)
      (common.VLabels (fngcp.Labels config))
  ∧ present_iff body "maxInstances" (0 < fngcp.MaxInstances config)
      (common.VInt (fngcp.MaxInstances config))
  ∧ present_iff body "vpcConnector" (fngcp.VPCConnector config ≠ "")
      (common.VString (fngcp.VPCConnector config)).
Proof.
  intros d body. split; [reflexivity |].
  repeat match goal with |- _ ∧ _ => split end.
  - eapply present_iff_guarded; [apply Z.ltb_lt | apply lookup_timeout].
  - eapply present_iff_guarded; [apply Z.ltb_lt | apply lookup_memorySize].
  - eapply present_iff_guarded;
      [apply length_pos_nonempty | apply lookup_serviceAccountEmail].
  - eapply present_iff_guarded; [apply size_pos_nonempty | apply lookup_labels].
  - eapply present_iff_guarded; [apply Z.ltb_lt | apply lookup_maxInstances].
  - eapply present_iff_guarded;
      [apply length_pos_nonempty | apply lookup_vpcConnector].
Qed.

(** C3. Every rendered body has the seven mandatory fields; when all six
    optional settings are at their zero or empty defaults it has exactly
    those seven and none of the optional ones. *)
Theorem mandatory_fields_always_and_alone_when_unset (p : option Provider)
    (l : option logp.Logger) (g : Config) (name : string)
    (config : fngcp.FunctionConfig) :
  let d := {| provider := p; log := l; gcpConfig := Some g |} in
  let body := requestBody_fields g name config in
  run (requestBody d name config) = (Value body, [Call_requestBody name])
  ∧ mandatory_fields ⊆ dom body
  ∧ (all_unset config →
     dom body = mandatory_fields ∧ size body = 7%nat
     ∧ ∀ k, k ∈ optional_fields → body !! k = None).
Proof.
  intros d body. split; [reflexivity |]. split.
  - intros k Hk. apply elem_of_dom. by apply lookup_mandatory.
  - intros (Ht & Hm & Hs & Hl & Hi & Hv).
    assert (body = requestBody_fields g name
                     {| fngcp.Description := fngcp.Description config;
                        fngcp.entryPoint := fngcp.entryPoint config;
                        fngcp.Trigger := fngcp.Trigger config;
                        fngcp.Timeout := 0; fngcp.MemorySize := 0;
                        fngcp.ServiceAccountEmail := ""; fngcp.Labels := ∅;
                        fngcp.MaxInstances := 0; fngcp.VPCConnector := "" |})
      as ->.
    { subst body. destruct config; simpl in *. by subst. }
    unfold requestBody_fields; simpl. rewrite map_size_empty. simpl.
    split; [| split].
    + rewrite !dom_insert_L, dom_empty_L. unfold mandatory_fields.
      set_solver.
    + rewrite !map_size_insert_None; [done | by literal_lookup ..].
    + unfold optional_fields. intros k.
      rewrite !elem_of_union, !elem_of_singleton.
      intros H; repeat (destruct H as [H | H]); subst k; by literal_lookup.
Qed.

(** C4. The [environmentVariables] of a rendered body is a map with exactly
    one entry: key [ENABLED_FUNCTIONS], value the function name passed in. *)
Theorem environmentVariables_single_entry (p : option Provider)
    (l : option logp.Logger) (g : Config) (name : string)
    (config : fngcp.FunctionConfig) :
  let d := {| provider := p; log := l; gcpConfig := Some g |} in
  let body := requestBody_fields g name config in
  run (requestBody d name config) = (Value body, [Call_requestBody name])
  ∧ ∃ env : common.MapStr,
      body !! "environmentVariables" = Some (common.VMapStr env)
      ∧ map_to_list env = [("ENABLED_FUNCTIONS", common.VString name)]
      ∧ size env = 1%nat
      ∧ env !! "ENABLED_FUNCTIONS" = Some (common.VString name).
Proof.
  intros d body. split; [reflexivity |].
  exists {[ "ENABLED_FUNCTIONS" := common.VString name ]}.
  split; [| split; [| split]].
  - subst body. skip_other_keys. literal_lookup.
  - apply map_to_list_singleton.
  - apply map_size_singleton.
  - apply lookup_singleton_eq.
Qed.

(** C5. With project [P] and location [L] configured, the [name] field of a
    rendered body is [projects/P/locations/L/functions/name]. *)
Theorem name_field_fully_qualified (p : option Provider)
    (l : option logp.Logger) (g : Config) (name : string)
    (config : fngcp.FunctionConfig) :
  let d := {| provider := p; log := l; gcpConfig := Some g |} in
  let body := requestBody_fields g name config in
  run (requestBody d name config) = (Value body, [Call_requestBody name])
  ∧ body !! "name"
    = Some (common.VString
              ("projects/" +:+ ProjectID g +:+ "/locations/" +:+ Location g
               +:+ "/functions/" +:+ name)).
Proof.
  intros d body. split; [reflexivity |].
  subst body. skip_other_keys. rewrite lookup_insert_eq.
  do 2 f_equal.
  change functionName with "projects/%s/locations/%s/functions/%s".
  simpl. rewrite append_empty_r. reflexivity.
Qed.

(** ** Resolution *)

(** What a run of [findFunction] returns, read back: the trace gains the
    one registry call; an error comes with no function, and a function
    comes from a buildable registry entry. *)
Lemma findFunction_inv (p : Provider) (name : string)
    (fn : option installer) (err : option error) (t t1 : list event) :
  findFunction (Some p) name t = (Value (fn, err), t1) →
  t1 = t ++ [Call_FindFunctionByName name]
  ∧ ((∃ e, err = Some e ∧ fn = None)
     ∨ (err = None ∧ ∃ f, fn = Some f
        ∧ FindFunctionByName p name = (Some (Installable f), None))).
Proof.
  unfold_run.
  destruct (FindFunctionByName p name) as [[[f | other] |] [e |]];
    simpl; intros [= <- <- <-]; split; eauto 8.
Qed.

(** C7. Resolution returns a function exactly when the registry lookup
    succeeds and the object found is buildable. The registry's error for an
    unknown name is passed on with no function; an object that is not
    buildable gives the "incompatible type" error and no function. *)
Theorem findFunction_descriptor_iff (p : Provider) (name : string)
    (fn : option Function) (err : option error) :
  FindFunctionByName p name = (fn, err) →
  ∃ res : option installer * option error,
    run (findFunction (Some p) name)
    = (Value res, [Call_FindFunctionByName name])
    ∧ (is_Some res.1 ↔ err = None ∧ ∃ f, fn = Some (Installable f))
    ∧ (∀ e, err = Some e → res = (None, Some e))
    ∧ (∀ f, err = None → fn = Some (Installable f) → res = (Some f, None))
    ∧ (err = None → (∀ f, fn ≠ Some (Installable f)) →
       res = (None, Some (errors_New
                "incompatible type received, expecting: 'functionManager'"))).
Proof.
  intros Hfind. unfold_run. rewrite Hfind.
  destruct err as [e |]; [| destruct fn as [[f | other] |]]; simpl;
    eexists; (split; [reflexivity |]); simpl;
    repeat match goal with |- _ ∧ _ => split end;
    try (intros; simplify_eq; done).
  - split; [by intros [? ?] | by intros [? _]].
  - split; [by eauto | by eauto].
  - intros _ Hne. by destruct (Hne f).
  - split; [by intros [? ?] | by intros [_ [? ?]]].
  - split; [by intros [? ?] | by intros [_ [? ?]]].
Qed.

(** ** Build *)





(** C6. [execute] gives all or nothing. When resolution fails, or when the
    archive writer fails, the result is the error alone: no data, and the
    run stops there, without a call of [requestBody]. Whatever the run, an
    error never comes with data. *)
Theorem execute_all_or_nothing
    (MakeZip : list bundle.Resource → list Byte.byte * option error)
    (p : Provider) (l : logp.Logger) (g : option Config) (name : string)
    (fn : option installer) (err : option error) (t1 : list event) :
  run (findFunction (Some p) name) = (Value (fn, err), t1) →
  let d := {| provider := Some p; log := Some l; gcpConfig := g |} in
  let start := Log_Debug "Compressing all assets into an artifact" :: t1 in
  (∀ e, err = Some e →
     run (execute MakeZip d name) = (Value (None, Some e), start))
  ∧ (err = None → ∃ f, fn = Some f ∧
       ∀ raw e, MakeZip (zipResources (Name f)) = (raw, Some e) →
         run (execute MakeZip d name)
         = (Value (None, Some e),
            start ++ [Call_MakeZip (zipResources (Name f))]))
  ∧ (∀ data e trace,
       run (execute MakeZip d name) = (Value (data, Some e), trace) →
       data = None ∧ rendered trace = [])
  ∧ (∀ data trace,
       run (execute MakeZip d name) = (Value (data, None), trace) →
       is_Some data ∧ rendered trace = [name]).
Proof.
  intros Hres d start. subst d start.
  unfold execute. revert Hres. unfold_run.
  destruct (FindFunctionByName p name) as [[[f | other] |] [e |]]; simpl;
    intros [= <- <- <-];
    repeat match goal with |- _ ∧ _ => split end;
    try (intros; simplify_eq; done).
  - intros _. exists f. split; [done |].
    intros raw e HM. by rewrite HM.
  - destruct (MakeZip (zipResources (Name f))) as [raw [e0 |]];
      [| destruct g]; simpl; intros data e trace ?; by simplify_eq.
  - destruct (MakeZip (zipResources (Name f))) as [raw [e0 |]];
      [| destruct g]; simpl; intros data trace ?; simplify_eq; eauto.
Qed.

(** ** Rendering alone *)

(** C8. [RawTemplate] returns the error of resolution, and so fails exactly
    when resolution fails, with the error [execute] fails with then. It
    never calls the archive writer. When resolution finds a function it
    returns the printed form of the body rendered from the name and the
    function's configuration, the body [execute] puts in its result. *)
Theorem RawTemplate_agrees_with_execute
    (MakeZip : list bundle.Resource → list Byte.byte * option error)
    (StringToPrint : common.MapStr → string)
    (p : Provider) (l : logp.Logger) (g : Config) (name : string)
    (fn : option installer) (err : option error) (t1 : list event) :
  run (findFunction (Some p) name) = (Value (fn, err), t1) →
  let d := {| provider := Some p; log := Some l; gcpConfig := Some g |} in
  zipped (run (RawTemplate StringToPrint d name)).2 = []
  ∧ (∃ text, (run (RawTemplate StringToPrint d name)).1 = Value (text, err))
  ∧ (∀ e, err = Some e →
       run (RawTemplate StringToPrint d name) = (Value ("", Some e), t1)
       ∧ (run (execute MakeZip d name)).1 = Value (None, Some e))
  ∧ (err = None → ∃ f, fn = Some f ∧
       let body := requestBody_fields g name (Config_ f) in
       run (RawTemplate StringToPrint d name)
       = (Value (StringToPrint body, None), t1 ++ [Call_requestBody name])
       ∧ (∀ raw, MakeZip (zipResources (Name f)) = (raw, None) →
            (run (execute MakeZip d name)).1
            = Value (Some {| raw := raw; requestBody_ := body |}, None))
       ∧ (∀ data, (run (execute MakeZip d name)).1 = Value (Some data, None) →
            requestBody_ data = body)).
Proof.
  intros Hres d. subst d.
  unfold RawTemplate, execute. revert Hres. unfold_run.
  destruct (FindFunctionByName p name) as [[[f | other] |] [e |]]; simpl;
    intros [= <- <- <-];
    repeat match goal with |- _ ∧ _ => split end;
    try (intros; simplify_eq; done); try (by eexists).
  intros _. exists f. split; [done |]. simpl.
  split; [reflexivity |]. split.
  - intros raw ->. reflexivity.
  - destruct (MakeZip (zipResources (Name f))) as [raw [e0 |]]; simpl;
      intros data ?; by simplify_eq.
Qed.

(** ** The list of archive files *)

Lemma fold_left_app_bind (functions : list string)
    (acc : list bundle.Resource) :
  fold_left (λ resources f, resources ++ zipResources f) functions acc
  = acc ++ (functions ≫= zipResources).
Proof.
  revert acc. induction functions as [| f functions IH]; intros acc.
  - simpl. by rewrite app_nil_r.
  - cbn [fold_left]. by rewrite IH, bind_cons, app_assoc.
Qed.

Lemma length_bind_zipResources (functions : list string) :
  length (functions ≫= zipResources) = (3 * length functions)%nat.
Proof.
  induction functions as [| f functions IH]; [done |].
  rewrite bind_cons, length_app, IH. simpl. lia.
Qed.

Lemma bind_zipResources_block (functions : list string) (i : nat) (f : string) :
  functions !! i = Some f →
  take 3 (drop (3 * i) (functions ≫= zipResources)) = zipResources f.
Proof.
  revert i. induction functions as [| f0 functions IH]; intros i; [done |].
  destruct i as [| i]; simpl.
  - by intros [= ->].
  - intros Hi. replace (i + S (i + S (i + 0)))%nat with (S (S (3 * i))) by lia.
    simpl. by apply IH.
Qed.

(** C9, amended. When the registry enumeration fails, [ZipResources]
    returns the nil slice and nothing else: the error does not reach the
    caller. When it succeeds with [N] function types, the result is the
    three files of each type, type after type, [3 * N] in all. *)
Theorem ZipResources_nil_on_error_else_three_per_type
    (ListFunctions : string → list string * option error)
    (functions : list string) (err : option error) :
  ListFunctions "gcp" = (functions, err) →
  (is_Some err → ZipResources ListFunctions = None)
  ∧ (err = None →
     ∃ resources, ZipResources ListFunctions = Some resources
       ∧ resources = functions ≫= zipResources
       ∧ length resources = (3 * length functions)%nat
       ∧ ∀ i f, functions !! i = Some f →
           take 3 (drop (3 * i) resources) = zipResources f).
Proof.
  intros HL. unfold ZipResources. rewrite HL. split.
  - by intros [e ->].
  - intros ->. eexists. split; [reflexivity |].
    rewrite fold_left_app_bind. simpl.
    split; [reflexivity |]. split.
    + apply length_bind_zipResources.
    + intros i f. apply bind_zipResources_block.
Qed.

(** ** Construction *)

(** C10. When unpacking the configuration fails, [NewTemplateBuilder]
    returns that error with a builder that is not nil and has all fields
    zero; when it succeeds, a nil error with a builder holding the given
    logger, the unpacked configuration and the given provider. *)
Theorem NewTemplateBuilder_result (log0 : option logp.Logger)
    (cfg : common_Config) (p : option Provider) (unpacked : Config)
    (err : option error) :
  Unpack cfg Config_zero = (unpacked, err) →
  (∀ e, err = Some e →
     NewTemplateBuilder log0 cfg p = (Some defaultTemplateBuilder_zero, Some e))
  ∧ (err = None →
     NewTemplateBuilder log0 cfg p
     = (Some {| provider := p; log := log0; gcpConfig := Some unpacked |},
        None)).
Proof.
  intros HU. unfold NewTemplateBuilder. rewrite HU.
  split; [by intros e -> | by intros ->].
Qed.

(** ** The scenarios of the deployment example *)

Example es_storage_build :
  match run (execute example.MakeZip_ok example.builder "es-storage") with
  | (Value (Some data, None), trace) =>
      zipped trace
      = [[ {| bundle.Path := "pkg/storage/storage.go"; bundle.FileMode := 493 |};
           {| bundle.Path := "pkg/storage/go.mod"; bundle.FileMode := 429 |};
           {| bundle.Path := "pkg/storage/go.sum"; bundle.FileMode := 429 |} ]]
      ∧ requestBody_ data !! "timeout" = Some (common.VString "30s")
      ∧ requestBody_ data !! "memorySize" = Some (common.VInt 256)
      ∧ requestBody_ data !! "name"
        = Some (common.VString
                  "projects/my-project/locations/us-central1/functions/es-storage")
      ∧ requestBody_ data !! "sourceArchiveUrl"
        = Some (common.VString "gs://functionbeat-deploy/es-storage")
      ∧ dom (requestBody_ data) ∩ optional_fields
        = {[ "timeout"; "memorySize" ]}
  | _ => False
  end.
Proof. vm_compute. repeat split. Qed.

Example missing_function_build :
  run (execute example.MakeZip_ok example.builder "missing-fn")
  = (Value (None, Some (example.not_found "missing-fn")),
     [Log_Debug "Compressing all assets into an artifact";
      Call_FindFunctionByName "missing-fn"]).
Proof. reflexivity. Qed.

Example unreadable_files_build :
  run (execute example.MakeZip_unreadable example.builder "es-storage")
  = (Value (None, Some (foreign_error "core" "open: no such file or directory")),
     [Log_Debug "Compressing all assets into an artifact";
      Call_FindFunctionByName "es-storage";
      Call_MakeZip (zipResources "storage")]).
Proof. reflexivity. Qed.

(** A builder made with [&defaultTemplateBuilder{}] panics at its first
    step, the log line. *)
Example zero_builder_panics :
  run (execute example.MakeZip_ok defaultTemplateBuilder_zero "es-storage")
  = (Panic "invalid memory address or nil pointer dereference", []).
Proof. reflexivity. Qed.

Example two_types_six_files :
  ZipResources example.ListFunctions_two
  = Some
      [ {| bundle.Path := "pkg/storage/storage.go"; bundle.FileMode := 493 |};
        {| bundle.Path := "pkg/storage/go.mod"; bundle.FileMode := 429 |};
        {| bundle.Path := "pkg/storage/go.sum"; bundle.FileMode := 429 |};
        {| bundle.Path := "pkg/pubsub/pubsub.go"; bundle.FileMode := 493 |};
        {| bundle.Path := "pkg/pubsub/go.mod"; bundle.FileMode := 429 |};
        {| bundle.Path := "pkg/pubsub/go.sum"; bundle.FileMode := 429 |} ].
Proof. reflexivity. Qed.

(** Type names that are not plain path elements: [Join] cleans the path. *)
Example zipResources_odd_names :
  bundle.Path <$> zipResources "" = ["pkg/.go"; "pkg/go.mod"; "pkg/go.sum"]
  ∧ bundle.Path <$> zipResources "a/b"
    = ["pkg/a/b/a/b.go"; "pkg/a/b/go.mod"; "pkg/a/b/go.sum"].
Proof. split; reflexivity. Qed.

(** ** The theorems at the deployment example *)


Lemma optional_fields_full_config :
  let body := requestBody_fields example.gcp_config "fn" example.full_config in
  body !! "timeout" = Some (common.VString "1m30s")
  ∧ body !! "memorySize" = Some (common.VInt 512)
  ∧ body !! "serviceAccountEmail"
    = Some (common.VString "fb@project.iam.gserviceaccount.com")
  ∧ body !! "labels" = Some (common.VLabels {[ "team" := "obs" ]})
  ∧ body !! "maxInstances" = Some (common.VInt 3)
  ∧ body !! "vpcConnector" = Some (common.VString "conn-1").
Proof.
  pose proof (optional_fields_present_iff_set None None example.gcp_config
                "fn" example.full_config)
    as (_ & [_ Ht] & [_ Hm] & [_ Hs] & [_ Hl] & [_ Hi] & [_ Hv]).
  intros body. repeat match goal with |- _ ∧ _ => split end.
  - exact (Ht eq_refl).
  - exact (Hm eq_refl).
  - apply Hs. discriminate.
  - apply Hl. apply insert_non_empty.
  - exact (Hi eq_refl).
  - apply Hv. discriminate.
Defined.

Lemma mandatory_fields_bare_config :
  let body := requestBody_fields example.gcp_config "fn" example.bare_config in
  dom body = mandatory_fields ∧ size body = 7%nat
  ∧ ∀ k, k ∈ optional_fields → body !! k = None.
Proof.
  pose proof (mandatory_fields_always_and_alone_when_unset None None
                example.gcp_config "fn" example.bare_config)
    as (_ & _ & Hunset).
  apply Hunset. repeat split; reflexivity.
Defined.

Lemma execute_unreadable_files :
  run (execute example.MakeZip_unreadable example.builder "es-storage")
  = (Value (None, Some (foreign_error "core" "open: no such file or directory")),
     [Log_Debug "Compressing all assets into an artifact";
      Call_FindFunctionByName "es-storage";
      Call_MakeZip (zipResources "storage")])
  ∧ run (execute example.MakeZip_ok example.builder "missing-fn")
    = (Value (None, Some (example.not_found "missing-fn")),
       [Log_Debug "Compressing all assets into an artifact";
        Call_FindFunctionByName "missing-fn"]).
Proof.
  split.
  - pose proof (execute_all_or_nothing example.MakeZip_unreadable
                  example.registry example.logger (Some example.gcp_config)
                  "es-storage" (Some example.es_storage) None
                  [Call_FindFunctionByName "es-storage"] eq_refl)
      as (_ & Hzip & _ & _).
    destruct (Hzip eq_refl) as (f & [= <-] & Hf).
    exact (Hf [] _ eq_refl).
  - pose proof (execute_all_or_nothing example.MakeZip_ok
                  example.registry example.logger (Some example.gcp_config)
                  "missing-fn" None (Some (example.not_found "missing-fn"))
                  [Call_FindFunctionByName "missing-fn"] eq_refl)
      as (Hres & _ & _ & _).
    exact (Hres _ eq_refl).
Defined.

Lemma findFunction_at_registry :
  (∃ res, run (findFunction (Some example.registry) "missing-fn")
          = (Value res, [Call_FindFunctionByName "missing-fn"])
          ∧ res = (None, Some (example.not_found "missing-fn")))
  ∧ (∃ res, run (findFunction (Some example.registry) "legacy")
            = (Value res, [Call_FindFunctionByName "legacy"])
            ∧ res = (None, Some (errors_New
                  "incompatible type received, expecting: 'functionManager'")))
  ∧ (∃ res, run (findFunction (Some example.registry) "es-storage")
            = (Value res, [Call_FindFunctionByName "es-storage"])
            ∧ res = (Some example.es_storage, None)).
Proof.
  split; [| split].
  - destruct (findFunction_descriptor_iff example.registry "missing-fn"
                None (Some (example.not_found "missing-fn")) eq_refl)
      as (res & Hrun & _ & Herr & _ & _).
    exists res. split; [exact Hrun | exact (Herr _ eq_refl)].
  - destruct (findFunction_descriptor_iff example.registry "legacy"
                (Some (NotInstallable "legacy")) None eq_refl)
      as (res & Hrun & _ & _ & _ & Hbad).
    exists res. split; [exact Hrun |]. apply Hbad; [reflexivity |].
    intros f. discriminate.
  - destruct (findFunction_descriptor_iff example.registry "es-storage"
                (Some (Installable example.es_storage)) None eq_refl)
      as (res & Hrun & _ & _ & Hok & _).
    exists res. split; [exact Hrun | exact (Hok _ eq_refl eq_refl)].
Defined.

Lemma RawTemplate_es_storage :
  let body :=
    requestBody_fields example.gcp_config "es-storage" example.storage_config in
  run (RawTemplate example.StringToPrint_keys example.builder "es-storage")
  = (Value (example.StringToPrint_keys body, None),
     [Call_FindFunctionByName "es-storage"; Call_requestBody "es-storage"])
  ∧ (run (execute example.MakeZip_ok example.builder "es-storage")).1
    = Value (Some {| raw := [Byte.x50; Byte.x50; Byte.x50];
                     requestBody_ := body |}, None).
Proof.
  pose proof (RawTemplate_agrees_with_execute example.MakeZip_ok
                example.StringToPrint_keys example.registry example.logger
                example.gcp_config "es-storage" (Some example.es_storage) None
                [Call_FindFunctionByName "es-storage"] eq_refl)
    as (_ & _ & _ & Hok).
  destruct (Hok eq_refl) as (f & [= <-] & Hraw & Hbuild & _).
  split; [exact Hraw | exact (Hbuild _ eq_refl)].
Defined.

Lemma ZipResources_two_types :
  ∃ resources, ZipResources example.ListFunctions_two = Some resources
    ∧ length resources = 6%nat
    ∧ take 3 resources = zipResources "storage"
    ∧ drop 3 resources = zipResources "pubsub".
Proof.
  destruct (ZipResources_nil_on_error_else_three_per_type
              example.ListFunctions_two ["storage"; "pubsub"] None eq_refl)
    as [_ Hok].
  destruct (Hok eq_refl) as (resources & Hres & -> & Hlen & _).
  exists (["storage"; "pubsub"] ≫= zipResources).
  split; [exact Hres |]. split; [exact Hlen |]. split; reflexivity.
Defined.

Lemma NewTemplateBuilder_at_example :
  NewTemplateBuilder (Some example.logger) example.cfg_bad
    (Some example.registry)
  = (Some defaultTemplateBuilder_zero,
     Some (foreign_error "ucfg" "missing field: project_id"))
  ∧ NewTemplateBuilder (Some example.logger) example.cfg_good
      (Some example.registry)
    = (Some example.builder, None).
Proof.
  split.
  - destruct (NewTemplateBuilder_result (Some example.logger) example.cfg_bad
                (Some example.registry) Config_zero
                (Some (foreign_error "ucfg" "missing field: project_id"))
                eq_refl) as [Hbad _].
    exact (Hbad _ eq_refl).
  - destruct (NewTemplateBuilder_result (Some example.logger) example.cfg_good
                (Some example.registry) example.gcp_config None eq_refl)
      as [_ Hgood].
    exact (Hgood eq_refl).
Defined.

(** ** Where the spec and [zipResources] part ways *)


(** ** Where the spec and [ZipResources] part ways *)

(** C9 as the spec has it, with the failure of the enumeration "returned as
    an explicit error value to the immediate caller", does not hold. Two
    registries that fail for different reasons give the same result, the
    nil slice, so no reading of the result gives the caller the error. *)
Lemma ZipResources_drops_the_error :
  (example.ListFunctions_unknown "gcp").2
  = Some (foreign_error "provider" "unknown provider")
  ∧ (example.ListFunctions_closed "gcp").2
    = Some (foreign_error "provider" "registry closed")
  ∧ ZipResources example.ListFunctions_unknown = None
  ∧ ZipResources example.ListFunctions_closed = None
  ∧ ¬ ∃ error_of : option (list bundle.Resource) → option error,
        ∀ ListFunctions : string → list string * option error,
          error_of (ZipResources ListFunctions) = (ListFunctions "gcp").2.
Proof.
  repeat split.
  intros (error_of & Hread).
  pose proof (Hread example.ListFunctions_unknown) as Hu.
  pose proof (Hread example.ListFunctions_closed) as Hc.
  change (ZipResources example.ListFunctions_unknown) with
    (@None (list bundle.Resource)) in Hu.
  change (ZipResources example.ListFunctions_closed) with
    (@None (list bundle.Resource)) in Hc.
  rewrite Hu in Hc. discriminate Hc.
Qed.

(** * Further properties of the builder *)

#[local] Set Warnings "-clear-no-such-hyp".

(** ** More on the request body *)

Lemma ltb_bool_decide (x : Z) : (0 <? x) = bool_decide (0 < x).
Proof.
  destruct (Z.ltb_spec 0 x);
    [by rewrite bool_decide_true | by rewrite bool_decide_false by lia].
Qed.

Lemma length_bool_decide (s : string) :
  (0 <? Z.of_nat (String.length s)) = bool_decide (s ≠ "").
Proof.
  destruct s as [| c s]; [done |].
  rewrite bool_decide_true by done. apply Z.ltb_lt. simpl. lia.
Qed.

Lemma size_bool_decide (m : gmap string string) :
  (0 <? Z.of_nat (size m)) = bool_decide (m ≠ ∅).
Proof.
  destruct (decide (m = ∅)) as [-> | Hne].
  - rewrite map_size_empty, bool_decide_false; [done | by intros H].
  - rewrite bool_decide_true by done. apply size_pos_nonempty. done.
Qed.

Lemma dom_guarded_insert (b : bool) (k : string) (v : common.value)
    (m : common.MapStr) :
  dom (if b then <[k:=v]> m else m)
  = (if b then {[ k ]} else ∅) ∪ dom m.
Proof. destruct b; [apply dom_insert_L | by rewrite (left_id_L ∅ (∪))]. Qed.

(** The fields of a body: the mandatory ones and the options given. *)
Lemma dom_requestBody_fields (g : Config) (name : string)
    (config : fngcp.FunctionConfig) :
  dom (requestBody_fields g name config)
  = mandatory_fields ∪ set_options config.
Proof.
  unfold requestBody_fields; cbv zeta.
  rewrite !dom_guarded_insert, !dom_insert_L, dom_empty_L.
  rewrite !length_bool_decide, size_bool_decide.
  change (0 * time.Second) with 0. rewrite !ltb_bool_decide.
  unfold mandatory_fields, set_options. set_solver.
Qed.

Lemma lookup_literal_field (g : Config) (name : string)
    (config : fngcp.FunctionConfig) (k : string) (v : common.value) :
  k ∈ mandatory_fields →
  (<["name" := common.VString
       (fmt.Sprintf functionName
          [fmt.Str (ProjectID g); fmt.Str (Location g); fmt.Str name])]> $
   <["description" := common.VString (fngcp.Description config)]> $
   <["entryPoint" := common.VString (fngcp.EntryPoint config)]> $
   <["runtime" := common.VString runtime]> $
   <["sourceArchiveUrl" :=
       common.VString
         (fmt.Sprintf sourceArchiveURL
            [fmt.Str (FunctionStorage g); fmt.Str name])]> $
   <["eventTrigger" := common.VTrigger (fngcp.Trigger config)]> $
   <["environmentVariables" :=
       common.VMapStr {[ "ENABLED_FUNCTIONS" := common.VString name ]}]> $
   (∅ : common.MapStr)) !! k = Some v →
  requestBody_fields g name config !! k = Some v.
Proof.
  unfold mandatory_fields. rewrite !elem_of_union, !elem_of_singleton.
  intros H Hv; repeat (destruct H as [H | H]); subst k;
    skip_other_keys; exact Hv.
Qed.

(** X1. The [sourceArchiveUrl] of a rendered body is [gs://B/name] for the
    configured bucket [B], and [runtime] is always [go111]. *)
Theorem sourceArchiveUrl_and_runtime_fields (p : option Provider)
    (l : option logp.Logger) (g : Config) (name : string)
    (config : fngcp.FunctionConfig) :
  let d := {| provider := p; log := l; gcpConfig := Some g |} in
  let body := requestBody_fields g name config in
  run (requestBody d name config) = (Value body, [Call_requestBody name])
  ∧ body !! "sourceArchiveUrl"
    = Some (common.VString ("gs://" +:+ FunctionStorage g +:+ "/" +:+ name))
  ∧ body !! "runtime" = Some (common.VString "go111").
Proof.
  intros d body. split; [reflexivity |]. split.
  - apply lookup_literal_field; [unfold mandatory_fields; set_solver |].
    rewrite !lookup_insert_ne by done. rewrite lookup_insert_eq.
    do 2 f_equal. change sourceArchiveURL with "gs://%s/%s".
    simpl. rewrite append_empty_r. reflexivity.
  - apply lookup_literal_field; [unfold mandatory_fields; set_solver |].
    rewrite !lookup_insert_ne by done. by rewrite lookup_insert_eq.
Qed.

(** X2. The description, the entry point and the event trigger of the
    function's configuration go into the body unchanged, whatever the
    optional settings are. *)
Theorem config_fields_passed_through (p : option Provider)
    (l : option logp.Logger) (g : Config) (name : string)
    (config : fngcp.FunctionConfig) :
  let d := {| provider := p; log := l; gcpConfig := Some g |} in
  let body := requestBody_fields g name config in
  run (requestBody d name config) = (Value body, [Call_requestBody name])
  ∧ body !! "description" = Some (common.VString (fngcp.Description config))
  ∧ body !! "entryPoint" = Some (common.VString (fngcp.EntryPoint config))
  ∧ body !! "eventTrigger" = Some (common.VTrigger (fngcp.Trigger config)).
Proof.
  intros d body. split; [reflexivity |].
  repeat match goal with |- _ ∧ _ => split end;
    (apply lookup_literal_field; [unfold mandatory_fields; set_solver |]);
    rewrite !lookup_insert_ne by done; by rewrite lookup_insert_eq.
Qed.

Lemma guarded_singleton_subseteq (b : bool) (k : string) (X : gset string) :
  k ∈ X → (if b then {[ k ]} else ∅) ⊆ X.
Proof.
  intros Hk. destruct b; [by apply singleton_subseteq_l | apply empty_subseteq].
Qed.

Lemma set_options_optional (config : fngcp.FunctionConfig) :
  set_options config ⊆ optional_fields.
Proof.
  unfold set_options.
  repeat apply union_least; apply guarded_singleton_subseteq;
    apply (bool_decide_unpack _); by vm_compute.
Qed.

(** X3. The fields of a rendered body are the seven mandatory ones and
    those optional ones whose setting is given, and no others: between
    seven and thirteen fields, never one outside the thirteen names. *)
Theorem body_fields_are_mandatory_and_set_options (p : option Provider)
    (l : option logp.Logger) (g : Config) (name : string)
    (config : fngcp.FunctionConfig) :
  let d := {| provider := p; log := l; gcpConfig := Some g |} in
  let body := requestBody_fields g name config in
  run (requestBody d name config) = (Value body, [Call_requestBody name])
  ∧ dom body = mandatory_fields ∪ set_options config
  ∧ set_options config ⊆ optional_fields
  ∧ (∀ k, k ∉ mandatory_fields ∪ optional_fields → body !! k = None)
  ∧ (7 ≤ size body ≤ 13)%nat.
Proof.
  intros d body. split; [reflexivity |].
  assert (set_options config ⊆ optional_fields) as Hsub
    by apply set_options_optional.
  assert (dom body = mandatory_fields ∪ set_options config) as Hdom
    by apply dom_requestBody_fields.
  split; [exact Hdom |]. split; [exact Hsub |]. split.
  - intros k Hk. apply not_elem_of_dom. rewrite Hdom.
    intros [Hin | Hin]%elem_of_union; apply Hk, elem_of_union;
      [by left | right; by apply Hsub].
  - rewrite <- (size_dom (D := gset string) body), Hdom.
    split.
    + change 7%nat with (size mandatory_fields).
      apply subseteq_size, union_subseteq_l.
    + change 13%nat with (size (mandatory_fields ∪ optional_fields)).
      apply subseteq_size, union_mono_l, Hsub.
Qed.

(** X4. With all six optional settings given, the body has exactly the
    thirteen fields. *)
Theorem all_set_gives_thirteen_fields (p : option Provider)
    (l : option logp.Logger) (g : Config) (name : string)
    (config : fngcp.FunctionConfig) :
  all_set config →
  let d := {| provider := p; log := l; gcpConfig := Some g |} in
  let body := requestBody_fields g name config in
  run (requestBody d name config) = (Value body, [Call_requestBody name])
  ∧ dom body = mandatory_fields ∪ optional_fields
  ∧ size body = 13%nat.
Proof.
  intros (Ht & Hm & Hs & Hl & Hi & Hv) d body. split; [reflexivity |].
  assert (dom body = mandatory_fields ∪ optional_fields) as Hdom.
  { subst body. rewrite dom_requestBody_fields. unfold set_options.
    rewrite !bool_decide_true by done. reflexivity. }
  split; [exact Hdom |].
  rewrite <- (size_dom (D := gset string) body), Hdom. reflexivity.
Qed.

Lemma guarded_insert_max (x : Z) (f : Z → common.value) (k : string)
    (m : common.MapStr) :
  (if 0 <? Z.max 0 x then <[k := f (Z.max 0 x)]> m else m)
  = (if 0 <? x then <[k := f x]> m else m).
Proof.
  destruct (Z.ltb_spec 0 x) as [Hx | Hx].
  - rewrite Z.max_r by lia. by rewrite (proj2 (Z.ltb_lt 0 x) Hx).
  - rewrite Z.max_l by lia. by rewrite Z.ltb_irrefl.
Qed.

(** X5. A negative timeout, memory size or instance limit counts as not
    given: the body is the one rendered with zero in its place. *)
Theorem negative_settings_render_as_unset (g : Config) (name : string)
    (config : fngcp.FunctionConfig) :
  requestBody_fields g name (without_negatives config)
  = requestBody_fields g name config
  ∧ (fngcp.Timeout config ≤ 0 →
     requestBody_fields g name config !! "timeout" = None)
  ∧ (fngcp.MemorySize config ≤ 0 →
     requestBody_fields g name config !! "memorySize" = None)
  ∧ (fngcp.MaxInstances config ≤ 0 →
     requestBody_fields g name config !! "maxInstances" = None).
Proof.
  split; [| split; [| split]].
  - unfold requestBody_fields, without_negatives, fngcp.EntryPoint; simpl.
    change (0 * time.Second) with 0.
    rewrite (guarded_insert_max (fngcp.Timeout config)
               (λ x, common.VString (time.Duration_String x))).
    rewrite (guarded_insert_max (fngcp.MemorySize config) common.VInt).
    rewrite (guarded_insert_max (fngcp.MaxInstances config) common.VInt).
    reflexivity.
  - intros H. rewrite lookup_timeout.
    by rewrite (proj2 (Z.ltb_ge 0 _) H).
  - intros H. rewrite lookup_memorySize.
    by rewrite (proj2 (Z.ltb_ge 0 _) H).
  - intros H. rewrite lookup_maxInstances.
    by rewrite (proj2 (Z.ltb_ge 0 _) H).
Qed.

(** ** More on resolution and on [execute] *)

(** X6. Whatever the registry answers, [findFunction] asks it once and
    returns exactly one of a function and an error. *)
Theorem findFunction_one_lookup_one_result (p : Provider) (name : string)
    (t : list event) :
  ∃ (fn : option installer) (err : option error),
    findFunction (Some p) name t
    = (Value (fn, err), t ++ [Call_FindFunctionByName name])
    ∧ (is_Some fn ↔ err = None).
Proof.
  unfold_run.
  destruct (FindFunctionByName p name) as [[[f | other] |] [e |]]; simpl;
    do 2 eexists; (split; [reflexivity |]);
    (split; [intros [? ?]; congruence | intros ?; try congruence; eauto]).
Qed.

(** X7. A successful build: when the registry holds a buildable function
    under [name] and the archive writer succeeds, [execute] returns the
    writer's bytes untouched with the body rendered from [name] and the
    function's configuration. The run logs a line, asks the registry, zips,
    logs the size of the archive in decimal and renders, in this order. *)
Theorem execute_success
    (MakeZip : list bundle.Resource → list Byte.byte * option error)
    (p : Provider) (l : logp.Logger) (g : Config) (name : string)
    (f : installer) (bytes : list Byte.byte) :
  FindFunctionByName p name = (Some (Installable f), None) →
  MakeZip (zipResources (Name f)) = (bytes, None) →
  run (execute MakeZip
         {| provider := Some p; log := Some l; gcpConfig := Some g |} name)
  = (Value (Some {| raw := bytes;
                    requestBody_ := requestBody_fields g name (Config_ f) |},
            None),
     [ Log_Debug "Compressing all assets into an artifact";
       Call_FindFunctionByName name;
       Call_MakeZip (zipResources (Name f));
       Log_Debug ("Compression is successful (zip size: "
                  +:+ strconv.Itoa (Z.of_nat (length bytes)) +:+ " bytes)");
       Call_requestBody name ]).
Proof.
  intros Hfind Hzip. unfold execute. unfold_run.
  rewrite Hfind. simpl. rewrite Hzip. reflexivity.
Qed.

(** X8. A dry run that succeeds does not mean the build will: when the
    function resolves but the archive writer fails, [RawTemplate] returns
    the printed body with a nil error, and [execute] returns the writer's
    error. *)
Theorem RawTemplate_succeeds_where_execute_fails
    (MakeZip : list bundle.Resource → list Byte.byte * option error)
    (StringToPrint : common.MapStr → string)
    (p : Provider) (l : logp.Logger) (g : Config) (name : string)
    (f : installer) (bytes : list Byte.byte) (e : error) :
  FindFunctionByName p name = (Some (Installable f), None) →
  MakeZip (zipResources (Name f)) = (bytes, Some e) →
  let d := {| provider := Some p; log := Some l; gcpConfig := Some g |} in
  (run (RawTemplate StringToPrint d name)).1
  = Value (StringToPrint (requestBody_fields g name (Config_ f)), None)
  ∧ (run (execute MakeZip d name)).1 = Value (None, Some e).
Proof.
  intros Hfind Hzip d. subst d. unfold RawTemplate, execute. unfold_run.
  rewrite Hfind. simpl. rewrite Hzip. split; reflexivity.
Qed.

(** ** Construction, then use *)

(** X9. The builder that [NewTemplateBuilder] returns along with an
    unpacking error has a nil provider: [RawTemplate] on it panics for
    every name, before any call is made. *)
Theorem failed_builder_panics_in_RawTemplate
    (StringToPrint : common.MapStr → string) (log0 : option logp.Logger)
    (cfg : common_Config) (p : option Provider) (unpacked : Config)
    (e : error) (name : string) :
  Unpack cfg Config_zero = (unpacked, Some e) →
  ∃ b why,
    NewTemplateBuilder log0 cfg p = (Some b, Some e)
    ∧ run (RawTemplate StringToPrint b name) = (Panic why, []).
Proof.
  intros HU. unfold NewTemplateBuilder. rewrite HU.
  do 2 eexists. split; reflexivity.
Qed.

(** X10. A builder made from a configuration that unpacks renders with
    the unpacked project, location and bucket; [RawTemplate] needs no
    logger, it never logs. *)
Theorem built_builder_renders_with_unpacked_config
    (StringToPrint : common.MapStr → string) (log0 : option logp.Logger)
    (cfg : common_Config) (p : Provider) (unpacked : Config)
    (name : string) (f : installer) :
  Unpack cfg Config_zero = (unpacked, None) →
  FindFunctionByName p name = (Some (Installable f), None) →
  ∃ b,
    NewTemplateBuilder log0 cfg (Some p) = (Some b, None)
    ∧ run (RawTemplate StringToPrint b name)
      = (Value (StringToPrint (requestBody_fields unpacked name (Config_ f)),
                None),
         [Call_FindFunctionByName name; Call_requestBody name]).
Proof.
  intros HU Hfind. unfold NewTemplateBuilder. rewrite HU.
  eexists. split; [reflexivity |].
  unfold RawTemplate. unfold_run. rewrite Hfind. reflexivity.
Qed.

(** ** More on the list of archive files *)

Lemma ZipResources_ok (ListFunctions : string → list string * option error)
    (functions : list string) :
  ListFunctions "gcp" = (functions, None) →
  ZipResources ListFunctions = Some (functions ≫= zipResources).
Proof.
  intros HL. unfold ZipResources. rewrite HL.
  by rewrite fold_left_app_bind.
Qed.

(** X11. [ZipResources] returns the nil slice exactly when the
    enumeration of the function types fails; with no type registered it
    returns the empty slice, not nil. *)
Theorem ZipResources_nil_iff_enumeration_fails
    (ListFunctions : string → list string * option error) :
  (ZipResources ListFunctions = None ↔ is_Some (ListFunctions "gcp").2)
  ∧ (ListFunctions "gcp" = ([], None) → ZipResources ListFunctions = Some []).
Proof.
  unfold ZipResources.
  destruct (ListFunctions "gcp") as [functions [e |]]; simpl.
  - split; [split; [by eauto | done] | done].
  - split; [split; [done | by intros [? ?]] | by intros [= ->]].
Qed.

Lemma zipResources_paths_plain (typeName : string) :
  plain_element typeName = true →
  bundle.Path <$> zipResources typeName
  = [ package_path typeName (typeName +:+ ".go");
      package_path typeName "go.mod";
      package_path typeName "go.sum" ].
Proof.
  intros Hplain. unfold zipResources, package_path. cbn [fmap list_fmap bundle.Path].
  rewrite !Join_pkg by
    (first [exact Hplain | by apply plain_element_source_file | reflexivity]).
  reflexivity.
Qed.

(** Up to its first separator a string is read in one way only. *)
Lemma append_separator_inj (a b r r' : string) :
  no_separator a = true → no_separator b = true →
  a +:+ String filepath.Separator r = b +:+ String filepath.Separator r' →
  a = b ∧ r = r'.
Proof.
  revert b. induction a as [| c a IH]; intros [| c' b];
    rewrite ?append_cons, ?append_empty_l; intros Ha Hb Heq.
  - by injection Heq as ->.
  - injection Heq as <- _. discriminate Hb.
  - injection Heq as -> _. discriminate Ha.
  - injection Heq as -> Heq.
    apply no_separator_cons in Ha as [_ Ha].
    apply no_separator_cons in Hb as [_ Hb].
    destruct (IH b Ha Hb Heq) as [-> ->]. done.
Qed.

Lemma package_path_inj (t1 t2 f1 f2 : string) :
  no_separator t1 = true → no_separator t2 = true →
  package_path t1 f1 = package_path t2 f2 → t1 = t2 ∧ f1 = f2.
Proof.
  intros H1 H2 Heq. unfold package_path in Heq.
  change ("pkg/" +:+ t1 +:+ "/" +:+ f1)
    with (String "p" (String "k" (String "g" (String "/"
            (t1 +:+ String filepath.Separator f1))))) in Heq.
  change ("pkg/" +:+ t2 +:+ "/" +:+ f2)
    with (String "p" (String "k" (String "g" (String "/"
            (t2 +:+ String filepath.Separator f2))))) in Heq.
  injection Heq as Heq. by apply append_separator_inj.
Qed.

(** The source file of a package is never one of the two manifests. *)
Lemma source_file_not_manifest (typeName : string) :
  typeName +:+ ".go" ≠ "go.mod" ∧ typeName +:+ ".go" ≠ "go.sum".
Proof.
  split; intros Heq;
    destruct typeName as [| c1 [| c2 [| c3 [| c4 [| c5 [| c6 [| c7 s]]]]]]];
    rewrite ?append_cons, ?append_empty_l in Heq; discriminate Heq.
Qed.

Lemma zipResources_paths_NoDup (typeName : string) :
  plain_element typeName = true →
  NoDup (bundle.Path <$> zipResources typeName).
Proof.
  intros Hplain. rewrite zipResources_paths_plain by done.
  pose proof (plain_element_inv _ Hplain) as (_ & _ & _ & Hsep).
  destruct (source_file_not_manifest typeName) as [Hmod Hsum].
  repeat (apply NoDup_cons; split); [| | | apply NoDup_nil_2].
  - rewrite !elem_of_cons, elem_of_nil.
    intros [Heq | [Heq | []]];
      apply package_path_inj in Heq as [_ Heq]; done.
  - rewrite !elem_of_cons, elem_of_nil.
    intros [Heq | []]. apply package_path_inj in Heq as [_ Heq]; done.
  - apply not_elem_of_nil.
Qed.

Lemma fmap_bind_zipResources (functions : list string) :
  bundle.Path <$> (functions ≫= zipResources)
  = functions ≫= (λ t, bundle.Path <$> zipResources t).
Proof.
  induction functions as [| t functions IH]; [done |].
  by rewrite !bind_cons, fmap_app, IH.
Qed.

(** X12. When the registered type names are plain path elements, all
    different, no two files listed by [ZipResources] have the same path. *)
Theorem ZipResources_paths_distinct
    (ListFunctions : string → list string * option error)
    (functions : list string) :
  ListFunctions "gcp" = (functions, None) →
  NoDup functions →
  Forall (λ t, plain_element t = true) functions →
  ∃ resources,
    ZipResources ListFunctions = Some resources
    ∧ NoDup (bundle.Path <$> resources).
Proof.
  intros HL Hnodup Hplain. rewrite Forall_forall in Hplain.
  exists (functions ≫= zipResources). split; [by apply ZipResources_ok |].
  rewrite fmap_bind_zipResources. apply NoDup_bind; [| | done].
  - intros t1 t2 path H1 H2.
    pose proof (plain_element_inv _ (Hplain t1 H1)) as (_ & _ & _ & S1).
    pose proof (plain_element_inv _ (Hplain t2 H2)) as (_ & _ & _ & S2).
    rewrite (zipResources_paths_plain t1) by auto.
    rewrite (zipResources_paths_plain t2) by auto.
    rewrite !elem_of_cons, !elem_of_nil.
    intros [-> | [-> | [-> | []]]] [Heq | [Heq | [Heq | []]]];
      by apply package_path_inj in Heq as [-> _].
  - intros t Ht. apply zipResources_paths_NoDup. auto.
Qed.

(** X13. The files [execute] zips for a function whose type is registered
    are among those [ZipResources] lists. *)
Theorem execute_zips_listed_files
    (MakeZip : list bundle.Resource → list Byte.byte * option error)
    (ListFunctions : string → list string * option error)
    (functions : list string)
    (p : Provider) (l : logp.Logger) (g : option Config) (name : string)
    (f : installer) :
  ListFunctions "gcp" = (functions, None) →
  FindFunctionByName p name = (Some (Installable f), None) →
  Name f ∈ functions →
  ∃ files listed,
    zipped (run (execute MakeZip
                   {| provider := Some p; log := Some l; gcpConfig := g |}
                   name)).2 = [files]
    ∧ ZipResources ListFunctions = Some listed
    ∧ ∀ file, file ∈ files → file ∈ listed.
Proof.
  intros HL Hfind Hin.
  exists (zipResources (Name f)), (functions ≫= zipResources).
  split; [| split; [by apply ZipResources_ok |]].
  - unfold execute. unfold_run. rewrite Hfind. simpl.
    destruct (MakeZip (zipResources (Name f))) as [bytes [e |]]; simpl;
      [reflexivity |].
    destruct g; reflexivity.
  - intros file Hfile. apply list_elem_of_bind. eauto.
Qed.

(** ** The further properties at the deployment example *)

Lemma thirteen_fields_full_config :
  let body := requestBody_fields example.gcp_config "fn" example.full_config in
  dom body = mandatory_fields ∪ optional_fields ∧ size body = 13%nat.
Proof.
  pose proof (all_set_gives_thirteen_fields None None example.gcp_config "fn"
                example.full_config) as Hall.
  apply Hall. unfold all_set.
  repeat match goal with |- _ ∧ _ => split end;
    first [exact eq_refl | discriminate | apply insert_non_empty].
Defined.

Lemma negative_config_renders_bare :
  let body :=
    requestBody_fields example.gcp_config "fn" example.negative_config in
  body !! "timeout" = None ∧ body !! "memorySize" = None
  ∧ body !! "maxInstances" = None.
Proof.
  pose proof (negative_settings_render_as_unset example.gcp_config "fn"
                example.negative_config) as (_ & Ht & Hm & Hi).
  intros body. split; [| split].
  - apply Ht. discriminate.
  - apply Hm. discriminate.
  - apply Hi. discriminate.
Defined.

Lemma execute_success_es_storage :
  run (execute example.MakeZip_ok example.builder "es-storage")
  = (Value (Some {| raw := [Byte.x50; Byte.x50; Byte.x50];
                    requestBody_ :=
                      requestBody_fields example.gcp_config "es-storage"
                        example.storage_config |},
            None),
     [ Log_Debug "Compressing all assets into an artifact";
       Call_FindFunctionByName "es-storage";
       Call_MakeZip (zipResources "storage");
       Log_Debug "Compression is successful (zip size: 3 bytes)";
       Call_requestBody "es-storage" ]).
Proof.
  exact (execute_success example.MakeZip_ok example.registry example.logger
           example.gcp_config "es-storage" example.es_storage
           [Byte.x50; Byte.x50; Byte.x50] eq_refl eq_refl).
Defined.

Lemma dry_run_passes_build_fails_es_storage :
  (run (RawTemplate example.StringToPrint_keys example.builder
          "es-storage")).1
  = Value (example.StringToPrint_keys
             (requestBody_fields example.gcp_config "es-storage"
                example.storage_config), None)
  ∧ (run (execute example.MakeZip_unreadable example.builder
            "es-storage")).1
    = Value (None,
             Some (foreign_error "core" "open: no such file or directory")).
Proof.
  exact (RawTemplate_succeeds_where_execute_fails example.MakeZip_unreadable
           example.StringToPrint_keys example.registry example.logger
           example.gcp_config "es-storage" example.es_storage [] _
           eq_refl eq_refl).
Defined.

Lemma failed_builder_panics_at_example :
  ∃ b why,
    NewTemplateBuilder (Some example.logger) example.cfg_bad
      (Some example.registry)
    = (Some b, Some (foreign_error "ucfg" "missing field: project_id"))
    ∧ run (RawTemplate example.StringToPrint_keys b "es-storage")
      = (Panic why, []).
Proof.
  exact (failed_builder_panics_in_RawTemplate example.StringToPrint_keys
           (Some example.logger) example.cfg_bad (Some example.registry)
           Config_zero _ "es-storage" eq_refl).
Defined.

Lemma built_builder_renders_at_example :
  ∃ b,
    NewTemplateBuilder None example.cfg_good (Some example.registry)
    = (Some b, None)
    ∧ run (RawTemplate example.StringToPrint_keys b "es-storage")
      = (Value (example.StringToPrint_keys
                  (requestBody_fields example.gcp_config "es-storage"
                     example.storage_config), None),
         [Call_FindFunctionByName "es-storage";
          Call_requestBody "es-storage"]).
Proof.
  exact (built_builder_renders_with_unpacked_config
           example.StringToPrint_keys None example.cfg_good example.registry
           example.gcp_config "es-storage" example.es_storage
           eq_refl eq_refl).
Defined.

Lemma ZipResources_no_types :
  ZipResources example.ListFunctions_none = Some [].
Proof.
  destruct (ZipResources_nil_iff_enumeration_fails
              example.ListFunctions_none) as [_ Hnone].
  exact (Hnone eq_refl).
Defined.

Lemma ZipResources_two_types_distinct_paths :
  ∃ resources,
    ZipResources example.ListFunctions_two = Some resources
    ∧ NoDup (bundle.Path <$> resources).
Proof.
  apply (ZipResources_paths_distinct example.ListFunctions_two
           ["storage"; "pubsub"] eq_refl).
  - apply NoDup_cons. split.
    + rewrite list_elem_of_singleton. discriminate.
    + apply NoDup_singleton.
  - repeat constructor.
Defined.

Lemma execute_zips_listed_files_es_storage :
  ∃ files listed,
    zipped (run (execute example.MakeZip_ok example.builder "es-storage")).2
    = [files]
    ∧ ZipResources example.ListFunctions_two = Some listed
    ∧ ∀ file, file ∈ files → file ∈ listed.
Proof.
  apply (execute_zips_listed_files example.MakeZip_ok
           example.ListFunctions_two ["storage"; "pubsub"] example.registry
           example.logger (Some example.gcp_config) "es-storage"
           example.es_storage eq_refl eq_refl).
  apply list_elem_of_here.
Defined.
